(** * sde_vm.h: the VM arbitration layer of the SDE display driver

    A shallow embedding of [msm/sde/sde_vm.h].  The header declares the
    data of the VM layer (IRQ descriptors, the hook table [sde_vm_ops], the
    descriptor [sde_vm] and its two variants) and defines the inline facade
    ([sde_vm_is_enabled], [sde_vm_lock], [sde_vm_unlock], [sde_vm_get_ops])
    twice: once for builds with CONFIG_DRM_SDE_VM and once as stubs.

    Conventions of the embedding:
    - a C integer is a [Z]; a pointer that the code only stores is an
      address in [Z] with [NULL = 0];
    - a pointer that the code dereferences ([sde_kms->vm]) is an [option]
      of the pointed-to record, [None] being the NULL pointer;
    - a function that writes through a pointer returns the updated record;
    - a call that may sleep returns an [option]: [None] says that the caller
      does not get past the call in the given state. *)

From Stdlib Require Import ZArith List Bool Lia.
Import ListNotations.
Open Scope Z_scope.

(** ** Kernel primitives the header relies on *)

Definition ptr := Z.
Definition NULL : ptr := 0.

(** A function pointer: the address of the hook's implementation. *)
Definition fn_ptr := Z.

(** The calling task ([current]). *)
Definition tid := nat.

(** [struct mutex], reduced to what matters here: who holds it. *)
Inductive mutex : Type :=
| MutexFree
| MutexHeld (owner : tid).

(** [mutex_lock]: takes a free mutex; on a held one the caller sleeps. *)
Definition mutex_lock (cur : tid) (m : mutex) : option mutex :=
  match m with
  | MutexFree => Some (MutexHeld cur)
  | MutexHeld _ => None
  end.

(** [mutex_unlock]: releases the mutex and returns.  The kernel API asks
    that the caller be the holder, but the call neither tests this for its
    caller nor waits. *)
Definition mutex_unlock (cur : tid) (m : mutex) : option mutex :=
  Some MutexFree.

(** ** Data of the header *)

(** [struct sde_vm_irq_entry] *)
Record sde_vm_irq_entry : Type := mk_irq_entry {
  label : Z;   (* u32: VM_IRQ_LABEL assigned by Hyp RM *)
  irq : Z      (* u32: linux mapped irq number *)
}.

(** [struct sde_vm_irq_desc] *)
Record sde_vm_irq_desc : Type := mk_irq_desc {
  n_irq : Z;
  irq_entries : list sde_vm_irq_entry
}.

(** [struct sde_vm_ops]: ten hooks, each a function pointer. *)
Record sde_vm_ops : Type := mk_vm_ops {
  vm_acquire : fn_ptr;
  vm_release : fn_ptr;
  vm_owns_hw : fn_ptr;
  vm_prepare_commit : fn_ptr;
  vm_post_commit : fn_ptr;
  vm_deinit : fn_ptr;
  vm_check : fn_ptr;
  vm_client_pre_release : fn_ptr;
  vm_client_post_acquire : fn_ptr;
  vm_request_valid : fn_ptr
}.

(** [struct sde_vm] *)
Record sde_vm : Type := mk_sde_vm {
  vm_res_lock : mutex;
  mem_notification_cookie : ptr;
  n_irq_lent : Z;          (* atomic_t *)
  io_mem_handle : Z;       (* int *)
  sde_kms_back : ptr;      (* struct sde_kms *sde_kms *)
  vm_ops : sde_vm_ops
}.

(** [struct sde_vm_primary] *)
Record sde_vm_primary : Type := mk_vm_primary {
  primary_base : sde_vm;
  primary_irq_desc : option sde_vm_irq_desc
}.

(** [struct sde_vm_trusted]; the scatter list [hh_sgl_desc] is opaque. *)
Record sde_vm_trusted : Type := mk_vm_trusted {
  trusted_base : sde_vm;
  trusted_irq_desc : option sde_vm_irq_desc;
  trusted_sgl_desc : ptr
}.

(** [struct sde_kms] is declared elsewhere; the header reads only its [vm]
    member.  Everything else in it is kept as one opaque component so that
    "untouched" can be said. *)
Record sde_kms (R : Type) : Type := mk_sde_kms {
  vm : option sde_vm;
  kms_rest : R
}.
Arguments mk_sde_kms {R} _ _.
Arguments vm {R} _.
Arguments kms_rest {R} _.

Definition set_vm_res_lock (m : mutex) (v : sde_vm) : sde_vm :=
  mk_sde_vm m (mem_notification_cookie v) (n_irq_lent v) (io_mem_handle v)
            (sde_kms_back v) (vm_ops v).

Definition set_vm {R} (v : option sde_vm) (k : sde_kms R) : sde_kms R :=
  mk_sde_kms v (kms_rest k).

(** ** The facade with CONFIG_DRM_SDE_VM enabled *)

Module Enabled.

(** [return !!sde_kms->vm;] *)
Definition sde_vm_is_enabled {R} (k : sde_kms R) : bool :=
  match vm k with
  | Some _ => true
  | None => false
  end.

(** [if (!sde_kms->vm) return; mutex_lock(&sde_kms->vm->vm_res_lock);] *)
Definition sde_vm_lock {R} (cur : tid) (k : sde_kms R) : option (sde_kms R) :=
  match vm k with
  | None => Some k
  | Some v =>
      match mutex_lock cur (vm_res_lock v) with
      | Some m => Some (set_vm (Some (set_vm_res_lock m v)) k)
      | None => None
      end
  end.

(** [if (!sde_kms->vm) return; mutex_unlock(&sde_kms->vm->vm_res_lock);] *)
Definition sde_vm_unlock {R} (cur : tid) (k : sde_kms R) : option (sde_kms R) :=
  match vm k with
  | None => Some k
  | Some v =>
      match mutex_unlock cur (vm_res_lock v) with
      | Some m => Some (set_vm (Some (set_vm_res_lock m v)) k)
      | None => None
      end
  end.

(** [if (!sde_kms->vm) return NULL; return &sde_kms->vm->vm_ops;] *)
Definition sde_vm_get_ops {R} (k : sde_kms R) : option sde_vm_ops :=
  match vm k with
  | None => None
  | Some v => Some (vm_ops v)
  end.

End Enabled.

(** ** The facade with CONFIG_DRM_SDE_VM disabled *)

Module Stub.

(** [return 0;] *)
Definition sde_vm_primary_init {R} (k : sde_kms R) : Z * sde_kms R := (0, k).

(** [return 0;] *)
Definition sde_vm_trusted_init {R} (k : sde_kms R) : Z * sde_kms R := (0, k).

(** [return false;] *)
Definition sde_vm_is_enabled {R} (k : sde_kms R) : bool := false.

(** empty body *)
Definition sde_vm_lock {R} (cur : tid) (k : sde_kms R) : option (sde_kms R) :=
  Some k.

(** empty body *)
Definition sde_vm_unlock {R} (cur : tid) (k : sde_kms R) : option (sde_kms R) :=
  Some k.

(** [return NULL;] *)
Definition sde_vm_get_ops {R} (k : sde_kms R) : option sde_vm_ops := None.

End Stub.

(** * The resource hand-off behind the hook table

    The header only declares the hooks of [sde_vm_ops]; their bodies live in
    the VM sources (primary, trusted and common parts), which are not part
    of this development's sources.  The definitions of this module follow
    the design document of the layer instead; each says so. *)

Module Handoff.

(** Modelled from the spec: the error kinds of the hook implementations
    (absent sources return them as errno values). *)
Inductive Error : Type :=
| ResourceLendFailure
| ResourceMismatch
| OwnershipViolation
| ClientNotReady
| InvalidTransition
| NotificationUnmatched.

(** Modelled from the spec: the result of a hook, [Result<(), Error>]
    (the absent sources return an int, 0 on success). *)
Inductive Result : Type :=
| Ok
| Err (e : Error).

(** Modelled from the spec: the IrqDescriptor, the entries of a
    [struct sde_vm_irq_desc] in request order. *)
Definition IrqDescriptor := list sde_vm_irq_entry.

(** Modelled from the spec: the MemoryRangeDescriptor ([struct hh_sgl_desc]
    is declared outside the header), a list of (base, size) ranges. *)
Definition MemoryRangeDescriptor := list (Z * Z).

(** Modelled from the spec: the Resource Ledger, i.e. the resource members
    of [struct sde_vm] ([n_irq_lent], [io_mem_handle],
    [mem_notification_cookie]) as the absent hook bodies use them, together
    with the list of IRQs currently lent that the ledger keeps track of. *)
Record ResourceLedger : Type := mk_ledger {
  held_irq_count : Z;
  io_memory_handle : option Z;
  notification_cookie : option Z;
  lent_irqs : list sde_vm_irq_entry
}.

(** Modelled from the spec: the ledger of a newly initialised role. *)
Definition fresh_ledger : ResourceLedger := mk_ledger 0 None None [].

(** Modelled from the spec: the collaborators of section 6, which the
    absent hook bodies call: the answers of the hypervisor
    resource manager to lend requests, the busy flags of the registered
    hardware clients, and the injected table of legal request pairs. *)
Record Collaborators : Type := mk_collab {
  hrm_lend_irq : sde_vm_irq_entry -> bool;
  hrm_lend_memory : MemoryRangeDescriptor -> option Z;
  clients_busy : list bool;
  legal_requests : list (Z * Z)
}.

(** *** Ledger operations (section 4.1 of the design) *)

(** Modelled from the spec: one step of the lend loop of [lend_irqs]. *)
Definition lend_one (e : sde_vm_irq_entry) (L : ResourceLedger) : ResourceLedger :=
  mk_ledger (held_irq_count L + 1) (io_memory_handle L)
            (notification_cookie L) (lent_irqs L ++ [e]).

(** Modelled from the spec: one step of the rollback of [lend_irqs]. *)
Definition unlend_one (L : ResourceLedger) : ResourceLedger :=
  mk_ledger (held_irq_count L - 1) (io_memory_handle L)
            (notification_cookie L) (removelast (lent_irqs L)).

(** Modelled from the spec: the rollback of [lend_irqs]; takes back the
    last [n] entries, most recent first. *)
Fixpoint rollback_irqs (n : nat) (L : ResourceLedger) : ResourceLedger :=
  match n with
  | O => L
  | S m => rollback_irqs m (unlend_one L)
  end.

(** Modelled from the spec: the loop of [lend_irqs]; [done] counts the
    entries this call has lent so far. *)
Fixpoint lend_irqs_from (env : Collaborators) (todo : list sde_vm_irq_entry)
         (done : nat) (L : ResourceLedger) : Result * ResourceLedger :=
  match todo with
  | [] => (Ok, L)
  | e :: rest =>
      if hrm_lend_irq env e
      then lend_irqs_from env rest (S done) (lend_one e L)
      else (Err ResourceLendFailure, rollback_irqs done L)
  end.

(** Modelled from the spec: [lend_irqs], the IRQ lend loop of the absent
    VM sources.  Entries are lent one by one in list order; the first
    refusal takes back what this call had lent and reports the failure. *)
Definition lend_irqs (env : Collaborators) (l : list sde_vm_irq_entry)
           (L : ResourceLedger) : Result * ResourceLedger :=
  lend_irqs_from env l 0 L.

(** Modelled from the spec: the comparison made by [reclaim_irqs], same
    labels in the same order and number. *)
Fixpoint labels_eqb (a b : list sde_vm_irq_entry) : bool :=
  match a, b with
  | [], [] => true
  | x :: a', y :: b' => (label x =? label y) && labels_eqb a' b'
  | _, _ => false
  end.

(** Modelled from the spec: [reclaim_irqs] of the absent VM sources.  The
    resource manager takes back what is lent and confirms that set; the
    call succeeds only if it is the expected list, label by label and in
    number.  A mismatch leaves the count as it is. *)
Definition reclaim_irqs (expected : list sde_vm_irq_entry)
           (L : ResourceLedger) : Result * ResourceLedger :=
  if labels_eqb (lent_irqs L) expected
  then (Ok, mk_ledger (held_irq_count L - Z.of_nat (length expected))
                      (io_memory_handle L) (notification_cookie L) [])
  else (Err ResourceMismatch, L).

(** Modelled from the spec: [lend_memory] of the absent VM sources; at most
    one handle is outstanding per ledger. *)
Definition lend_memory (env : Collaborators) (d : MemoryRangeDescriptor)
           (L : ResourceLedger) : Result * ResourceLedger :=
  match io_memory_handle L with
  | Some _ => (Err ResourceLendFailure, L)
  | None =>
      match hrm_lend_memory env d with
      | Some h => (Ok, mk_ledger (held_irq_count L) (Some h)
                                 (notification_cookie L) (lent_irqs L))
      | None => (Err ResourceLendFailure, L)
      end
  end.

(** Modelled from the spec: [reclaim_memory] of the absent VM sources. *)
Definition reclaim_memory (h : Z) (L : ResourceLedger) : Result * ResourceLedger :=
  match io_memory_handle L with
  | Some h0 =>
      if h0 =? h
      then (Ok, mk_ledger (held_irq_count L) None
                          (notification_cookie L) (lent_irqs L))
      else (Err ResourceMismatch, L)
  | None => (Err ResourceMismatch, L)
  end.

(** Modelled from the spec: [register_notification]; one slot per ledger. *)
Definition register_notification (c : Z) (L : ResourceLedger) : ResourceLedger :=
  mk_ledger (held_irq_count L) (io_memory_handle L) (Some c) (lent_irqs L).

Section Notification.

(** What a delivered event does to the ledger is not fixed by the
    design; it is a parameter here. *)
Variable Event : Type.
Variable apply_event : Event -> ResourceLedger -> ResourceLedger.

(** Modelled from the spec: [on_notification], the resource manager
    callback of the absent VM sources.  Only a notification carrying
    exactly the stored cookie is applied. *)
Definition on_notification (c : Z) (ev : Event) (L : ResourceLedger)
  : (Event + Error) * ResourceLedger :=
  match notification_cookie L with
  | Some c0 =>
      if c0 =? c
      then (inl ev, apply_event ev L)
      else (inr NotificationUnmatched, L)
  | None => (inr NotificationUnmatched, L)
  end.

End Notification.

(** *** Role descriptors (sections 3 and 4.2 of the design) *)

(** Modelled from the spec: the two variants of the Role Descriptor, each
    with its ledger.  The primary caches its IRQ list and carries the mark
    "hardware released"; the trusted role has the IRQ list and the memory
    ranges it requests on acquire. *)
Inductive RoleDescriptor : Type :=
| Primary (base : ResourceLedger) (irq_desc : IrqDescriptor) (released : bool)
| Trusted (base : ResourceLedger) (irq_desc : IrqDescriptor)
          (sgl_desc : MemoryRangeDescriptor).

(** Modelled from the spec: the ledger embedded in a role ([base]). *)
Definition ledger_of (r : RoleDescriptor) : ResourceLedger :=
  match r with
  | Primary L _ _ => L
  | Trusted L _ _ => L
  end.

(** Modelled from the spec: [init_primary]; the primary owns the hardware
    at cold boot and issues no lend call. *)
Definition init_primary (d : IrqDescriptor) : RoleDescriptor :=
  Primary fresh_ledger d false.

(** Modelled from the spec: [init_trusted]; nothing is lent yet. *)
Definition init_trusted (d : IrqDescriptor) (sgl : MemoryRangeDescriptor)
  : RoleDescriptor :=
  Trusted fresh_ledger d sgl.

(** *** The hooks, one implementation per role (section 4.3) *)

(** Modelled from the spec: [owns_hw], a pure query.  The trusted role owns
    the hardware when all its IRQs are held and the memory handle is set;
    the primary when it has not marked the hardware released. *)
Definition owns_hw (r : RoleDescriptor) : bool :=
  match r with
  | Primary _ _ released => negb released
  | Trusted L d _ =>
      (held_irq_count L =? Z.of_nat (length d))
      && match io_memory_handle L with Some _ => true | None => false end
  end.

(** Modelled from the spec: [vm_check]; any busy client is an error. *)
Definition vm_check (env : Collaborators) : Result :=
  if existsb (fun b => b) (clients_busy env) then Err ClientNotReady else Ok.

(** Modelled from the spec: [acquire].  Trusted: lend the IRQs, then the
    memory; a failed memory lend reclaims the IRQs again.  Primary:
    bookkeeping only, no call to the resource manager. *)
Definition acquire (env : Collaborators) (r : RoleDescriptor)
  : Result * RoleDescriptor :=
  match r with
  | Primary L d _ => (Ok, Primary L d false)
  | Trusted L d sgl =>
      match lend_irqs env d L with
      | (Err e, L1) => (Err e, Trusted L1 d sgl)
      | (Ok, L1) =>
          match lend_memory env sgl L1 with
          | (Ok, L2) => (Ok, Trusted L2 d sgl)
          | (Err e, L2) => (Err e, Trusted (snd (reclaim_irqs d L2)) d sgl)
          end
      end
  end.

(** Modelled from the spec: [release].  Nothing is reclaimed while a
    client is busy.  Trusted: reclaim the memory first, then the IRQs,
    checked against the descriptor.  Primary: mark the hardware released. *)
Definition release (env : Collaborators) (r : RoleDescriptor)
  : Result * RoleDescriptor :=
  match vm_check env with
  | Err e => (Err e, r)
  | Ok =>
      match r with
      | Primary L d _ => (Ok, Primary L d true)
      | Trusted L d sgl =>
          match io_memory_handle L with
          | None => (Err ResourceMismatch, r)
          | Some h =>
              match reclaim_memory h L with
              | (Err e, L1) => (Err e, Trusted L1 d sgl)
              | (Ok, L1) =>
                  match reclaim_irqs d L1 with
                  | (res, L2) => (res, Trusted L2 d sgl)
                  end
              end
          end
      end
  end.

(** Modelled from the spec: [prepare_commit]; programming the hardware
    without owning it is a protocol violation. *)
Definition prepare_commit (pending_commit_state : Z) (r : RoleDescriptor)
  : Result * RoleDescriptor :=
  if owns_hw r then (Ok, r) else (Err OwnershipViolation, r).

(** Modelled from the spec: [post_commit]; no resource changes hands. *)
Definition post_commit (committed_state : Z) (r : RoleDescriptor)
  : Result * RoleDescriptor :=
  (Ok, r).

(** Modelled from the spec: the two client broadcasts; their effect is on
    the clients, not on the ledger. *)
Definition client_pre_release (env : Collaborators) (r : RoleDescriptor)
  : Result * RoleDescriptor :=
  (Ok, r).

(** Modelled from the spec: [client_post_acquire], see above. *)
Definition client_post_acquire (env : Collaborators) (r : RoleDescriptor)
  : Result * RoleDescriptor :=
  (Ok, r).

(** Modelled from the spec: [request_valid]; legal pairs come from the
    injected table. *)
Definition request_valid (env : Collaborators) (old_state new_state : Z) : Result :=
  if existsb (fun p => (fst p =? old_state) && (snd p =? new_state))
             (legal_requests env)
  then Ok else Err InvalidTransition.

(** Modelled from the spec: [deinit]; the descriptor is gone afterwards,
    and a second call finds nothing to do. *)
Definition deinit (r : option RoleDescriptor) : option RoleDescriptor := None.

(** Modelled from the spec: a call through one of the ten members of the
    hook table. *)
Inductive Hook : Type :=
| HAcquire
| HRelease
| HOwnsHw
| HPrepareCommit (pending : Z)
| HPostCommit (committed : Z)
| HDeinit
| HCheck
| HClientPreRelease
| HClientPostAcquire
| HRequestValid (old_state new_state : Z).

(** Modelled from the spec: the dispatch through the hook table; the
    descriptor the hook leaves behind ([None] after [HDeinit]). *)
Definition run_hook (env : Collaborators) (h : Hook) (r : RoleDescriptor)
  : option RoleDescriptor :=
  match h with
  | HAcquire => Some (snd (acquire env r))
  | HRelease => Some (snd (release env r))
  | HOwnsHw => Some r
  | HPrepareCommit st => Some (snd (prepare_commit st r))
  | HPostCommit st => Some (snd (post_commit st r))
  | HDeinit => deinit (Some r)
  | HCheck => Some r
  | HClientPreRelease => Some (snd (client_pre_release env r))
  | HClientPostAcquire => Some (snd (client_post_acquire env r))
  | HRequestValid _ _ => Some r
  end.

(** Modelled from the spec: the invariant of [held_irq_count] stated in
    section 3. *)
Definition ledger_inv (L : ResourceLedger) : Prop :=
  0 <= held_irq_count L /\
  held_irq_count L = Z.of_nat (length (lent_irqs L)).

(** Modelled from the spec: the state section 8 calls pre-acquire. *)
Definition pre_acquire (L : ResourceLedger) : Prop :=
  held_irq_count L = 0 /\
  io_memory_handle L = None /\
  notification_cookie L = None.

End Handoff.

(** * Sample data

    A context with a descriptor whose lock is free, the same context with
    the lock taken by task 1, and a context without descriptor. *)
Definition ops0 : sde_vm_ops := mk_vm_ops 101 102 103 104 105 106 107 108 109 110.
Definition vm0 : sde_vm := mk_sde_vm MutexFree 4096 0 (-1) 8192 ops0.
Definition kms0 : sde_kms unit := mk_sde_kms (Some vm0) tt.
Definition kms0_locked : sde_kms unit :=
  mk_sde_kms (Some (set_vm_res_lock (MutexHeld 1%nat) vm0)) tt.
Definition kms_off : sde_kms unit := mk_sde_kms None tt.

(** The ledger after lending all of [l], one entry after the other. *)
Definition lend_all (l : list sde_vm_irq_entry)
           (L : Handoff.ResourceLedger) : Handoff.ResourceLedger :=
  fold_left (fun acc e => Handoff.lend_one e acc) l L.

(** The trusted role of the design's scenario: IRQs (7, 42) and (9, 55). *)
Definition two_irqs : Handoff.IrqDescriptor := [mk_irq_entry 7 42; mk_irq_entry 9 55].
Definition io_ranges : Handoff.MemoryRangeDescriptor := [(4096, 256)].
Definition trusted_idle : Handoff.RoleDescriptor :=
  Handoff.init_trusted two_irqs io_ranges.
Definition trusted_acquired : Handoff.RoleDescriptor :=
  Handoff.Trusted (Handoff.mk_ledger 2 (Some 5) None two_irqs) two_irqs io_ranges.

(** Collaborators: one that grants everything, one with a busy client, one
    whose resource manager refuses label 9, one that refuses the memory. *)
Definition willing_env : Handoff.Collaborators :=
  Handoff.mk_collab (fun _ => true) (fun _ => Some 5) [false; false] [(0, 1); (1, 0)].
Definition busy_env : Handoff.Collaborators :=
  Handoff.mk_collab (fun _ => true) (fun _ => Some 5) [false; true] [(0, 1); (1, 0)].
Definition picky_env : Handoff.Collaborators :=
  Handoff.mk_collab (fun e => negb (label e =? 9)) (fun _ => Some 5) [] [].
Definition stingy_env : Handoff.Collaborators :=
  Handoff.mk_collab (fun _ => true) (fun _ => None) [] [].

(** * Properties of the facade *)

Section Facade.

Variable R : Type.
Implicit Types k : sde_kms R.

Lemma mutex_lock_free cur : mutex_lock cur MutexFree = Some (MutexHeld cur).
Proof. reflexivity. Qed.

Lemma mutex_lock_held cur o : mutex_lock cur (MutexHeld o) = None.
Proof. reflexivity. Qed.

Lemma mutex_unlock_own cur : mutex_unlock cur (MutexHeld cur) = Some MutexFree.
Proof. reflexivity. Qed.

Lemma set_vm_res_lock_frame m v :
  vm_res_lock (set_vm_res_lock m v) = m /\
  mem_notification_cookie (set_vm_res_lock m v) = mem_notification_cookie v /\
  n_irq_lent (set_vm_res_lock m v) = n_irq_lent v /\
  io_mem_handle (set_vm_res_lock m v) = io_mem_handle v /\
  sde_kms_back (set_vm_res_lock m v) = sde_kms_back v /\
  vm_ops (set_vm_res_lock m v) = vm_ops v.
Proof. now repeat split. Qed.

(** C6: [sde_vm_is_enabled] answers true exactly when a descriptor is
    installed in the context, i.e. when [sde_kms->vm] is not NULL. *)
Theorem sde_vm_is_enabled_iff_installed k :
  Enabled.sde_vm_is_enabled k = true <-> vm k <> None.
Proof.
  unfold Enabled.sde_vm_is_enabled.
  destruct (vm k) as [v|]; split; intros H; try reflexivity;
    try discriminate; now try contradiction.
Qed.

(** C7: [sde_vm_get_ops] hands out the hook table of the installed
    descriptor, and NULL when none is installed. *)
Theorem sde_vm_get_ops_spec k :
  (forall v, vm k = Some v -> Enabled.sde_vm_get_ops k = Some (vm_ops v)) /\
  (vm k = None -> Enabled.sde_vm_get_ops k = None).
Proof.
  unfold Enabled.sde_vm_get_ops.
  split; [intros v Hv | intros Hv]; now rewrite Hv.
Qed.

(** C8: without a descriptor [sde_vm_lock] and [sde_vm_unlock] return at
    once and leave the context as it is.  With a descriptor [v] they do
    [mutex_lock], resp. [mutex_unlock], on [v]'s [vm_res_lock] and touch
    nothing else: a free lock ends up held by the caller, a lock held by
    the caller ends up free, and a caller finding the lock held waits. *)
Theorem sde_vm_lock_unlock_spec (cur : tid) k :
  (vm k = None ->
     Enabled.sde_vm_lock cur k = Some k /\
     Enabled.sde_vm_unlock cur k = Some k) /\
  (forall v, vm k = Some v ->
     (vm_res_lock v = MutexFree ->
        Enabled.sde_vm_lock cur k =
        Some (mk_sde_kms (Some (set_vm_res_lock (MutexHeld cur) v)) (kms_rest k))) /\
     (forall o, vm_res_lock v = MutexHeld o ->
        Enabled.sde_vm_lock cur k = None) /\
     (vm_res_lock v = MutexHeld cur ->
        Enabled.sde_vm_unlock cur k =
        Some (mk_sde_kms (Some (set_vm_res_lock MutexFree v)) (kms_rest k)))).
Proof.
  unfold Enabled.sde_vm_lock, Enabled.sde_vm_unlock, set_vm.
  split.
  - intros Hv. now rewrite Hv.
  - intros v Hv. rewrite Hv. split; [| split].
    + intros Hm. now rewrite Hm.
    + intros o Hm. now rewrite Hm.
    + intros Hm. rewrite Hm. now rewrite mutex_unlock_own.
Qed.

(** C9: in the enabled build the two queries agree: [sde_vm_is_enabled]
    is true exactly when [sde_vm_get_ops] is not NULL. *)
Theorem sde_vm_is_enabled_iff_get_ops k :
  Enabled.sde_vm_is_enabled k = true <-> Enabled.sde_vm_get_ops k <> None.
Proof.
  unfold Enabled.sde_vm_is_enabled, Enabled.sde_vm_get_ops.
  destruct (vm k) as [v|]; split; intros H; try reflexivity;
    try discriminate; now try contradiction.
Qed.

(** C10: with the feature compiled out both initialisers return 0 and
    install nothing, [sde_vm_is_enabled] is false, [sde_vm_get_ops] is
    NULL, and locking and unlocking leave the context as it is. *)
Theorem stub_facade_is_noop (cur : tid) k :
  Stub.sde_vm_primary_init k = (0, k) /\
  Stub.sde_vm_trusted_init k = (0, k) /\
  Stub.sde_vm_is_enabled k = false /\
  Stub.sde_vm_get_ops k = None /\
  Stub.sde_vm_lock cur k = Some k /\
  Stub.sde_vm_unlock cur k = Some k.
Proof. now repeat split. Qed.

End Facade.

Lemma sde_vm_is_enabled_iff_installed_witness :
  Enabled.sde_vm_is_enabled kms0 = true.
Proof.
  apply (proj2 (sde_vm_is_enabled_iff_installed unit kms0)).
  simpl. discriminate.
Defined.

Lemma sde_vm_get_ops_spec_witness :
  Enabled.sde_vm_get_ops kms0 = Some ops0 /\
  Enabled.sde_vm_get_ops kms_off = None.
Proof.
  split.
  - apply (proj1 (sde_vm_get_ops_spec unit kms0) vm0). reflexivity.
  - apply (proj2 (sde_vm_get_ops_spec unit kms_off)). reflexivity.
Defined.

Lemma sde_vm_lock_unlock_spec_witness :
  Enabled.sde_vm_lock 1%nat kms0 = Some kms0_locked /\
  Enabled.sde_vm_lock 2%nat kms0_locked = None /\
  Enabled.sde_vm_unlock 1%nat kms0_locked = Some kms0 /\
  Enabled.sde_vm_lock 1%nat kms_off = Some kms_off.
Proof.
  destruct (sde_vm_lock_unlock_spec unit 1%nat kms0) as [_ H0].
  destruct (H0 vm0 eq_refl) as [Hlock _].
  destruct (sde_vm_lock_unlock_spec unit 2%nat kms0_locked) as [_ H1].
  destruct (H1 (set_vm_res_lock (MutexHeld 1%nat) vm0) eq_refl) as [_ [Hwait _]].
  destruct (sde_vm_lock_unlock_spec unit 1%nat kms0_locked) as [_ H2].
  destruct (H2 (set_vm_res_lock (MutexHeld 1%nat) vm0) eq_refl) as [_ [_ Hunlock]].
  destruct (sde_vm_lock_unlock_spec unit 1%nat kms_off) as [Hoff _].
  split; [exact (Hlock eq_refl) |].
  split; [exact (Hwait 1%nat eq_refl) |].
  split; [exact (Hunlock eq_refl) |].
  exact (proj1 (Hoff eq_refl)).
Defined.

Lemma sde_vm_is_enabled_iff_get_ops_witness :
  Enabled.sde_vm_is_enabled kms0 = true.
Proof.
  apply (proj2 (sde_vm_is_enabled_iff_get_ops unit kms0)).
  simpl. discriminate.
Defined.

(** * Properties of the resource hand-off *)

Import Handoff.

(** ** Lending IRQs *)

Lemma unlend_lend e L : unlend_one (lend_one e L) = L.
Proof.
  destruct L as [n h c lent]. unfold unlend_one, lend_one. simpl.
  rewrite removelast_last. f_equal. lia.
Qed.

Lemma lend_all_snoc l e L : lend_all (l ++ [e]) L = lend_one e (lend_all l L).
Proof. unfold lend_all. now rewrite fold_left_app. Qed.

Lemma rollback_lend_all l L : rollback_irqs (length l) (lend_all l L) = L.
Proof.
  induction l as [|e l IH] using rev_ind.
  - reflexivity.
  - rewrite length_app, Nat.add_1_r, lend_all_snoc. simpl.
    now rewrite unlend_lend.
Qed.

Lemma lend_all_fields l : forall L,
  lend_all l L =
  mk_ledger (held_irq_count L + Z.of_nat (length l)) (io_memory_handle L)
            (notification_cookie L) (lent_irqs L ++ l).
Proof.
  induction l as [|e l IH]; intros [n h c lent].
  - simpl. now rewrite Z.add_0_r, app_nil_r.
  - change (lend_all (e :: l) (mk_ledger n h c lent))
      with (lend_all l (lend_one e (mk_ledger n h c lent))).
    rewrite IH. unfold lend_one. simpl held_irq_count. simpl io_memory_handle.
    simpl notification_cookie. simpl lent_irqs.
    rewrite <- app_assoc. simpl app. simpl length. f_equal.
    rewrite Nat2Z.inj_succ. lia.
Qed.

Lemma lend_irqs_from_spec env todo : forall done L0,
  lend_irqs_from env todo (length done) (lend_all done L0) =
  if forallb (hrm_lend_irq env) todo
  then (Ok, lend_all todo (lend_all done L0))
  else (Err ResourceLendFailure, L0).
Proof.
  induction todo as [|e rest IH]; intros done L0.
  - reflexivity.
  - simpl. destruct (hrm_lend_irq env e).
    + specialize (IH (done ++ [e]) L0).
      rewrite length_app, Nat.add_1_r, lend_all_snoc in IH. exact IH.
    + simpl. now rewrite rollback_lend_all.
Qed.

Lemma lend_irqs_spec env l L :
  lend_irqs env l L =
  if forallb (hrm_lend_irq env) l
  then (Ok, mk_ledger (held_irq_count L + Z.of_nat (length l)) (io_memory_handle L)
                      (notification_cookie L) (lent_irqs L ++ l))
  else (Err ResourceLendFailure, L).
Proof.
  unfold lend_irqs.
  change (lend_irqs_from env l 0 L)
    with (lend_irqs_from env l (length (@nil sde_vm_irq_entry)) (lend_all [] L)).
  rewrite lend_irqs_from_spec.
  change (lend_all [] L) with L.
  now rewrite lend_all_fields.
Qed.

(** C1: in either role, [prepare_commit] called while [owns_hw] is false
    fails with [OwnershipViolation], leaves the descriptor alone, and so
    never reports success without ownership. *)
Theorem prepare_commit_requires_ownership (r : RoleDescriptor) (pending : Z) :
  owns_hw r = false ->
  prepare_commit pending r = (Err OwnershipViolation, r) /\
  fst (prepare_commit pending r) <> Ok.
Proof.
  intros H. unfold prepare_commit. rewrite H. split; [reflexivity | discriminate].
Qed.

Lemma prepare_commit_requires_ownership_witness :
  (prepare_commit 0 (init_trusted [mk_irq_entry 7 42; mk_irq_entry 9 55] [(4096, 256)])
   = (Err OwnershipViolation,
      init_trusted [mk_irq_entry 7 42; mk_irq_entry 9 55] [(4096, 256)])) /\
  (prepare_commit 0 (Primary fresh_ledger [mk_irq_entry 7 42] true)
   = (Err OwnershipViolation, Primary fresh_ledger [mk_irq_entry 7 42] true)).
Proof.
  split.
  - apply (prepare_commit_requires_ownership
             (init_trusted [mk_irq_entry 7 42; mk_irq_entry 9 55] [(4096, 256)]) 0).
    reflexivity.
  - apply (prepare_commit_requires_ownership
             (Primary fresh_ledger [mk_irq_entry 7 42] true) 0).
    reflexivity.
Defined.

(** C3: whatever the list and whatever the resource manager answers,
    [lend_irqs] either succeeds, having raised [held_irq_count] by the
    length of the list (and recorded the entries as lent, nothing else
    changed), or fails with the ledger exactly as it was before the call:
    entries lent earlier in the same call have been taken back. *)
Theorem lend_irqs_all_or_nothing (env : Collaborators)
        (l : list sde_vm_irq_entry) (L : ResourceLedger) :
  (exists L',
      lend_irqs env l L = (Ok, L') /\
      held_irq_count L' = held_irq_count L + Z.of_nat (length l) /\
      lent_irqs L' = lent_irqs L ++ l /\
      io_memory_handle L' = io_memory_handle L /\
      notification_cookie L' = notification_cookie L)
  \/ lend_irqs env l L = (Err ResourceLendFailure, L).
Proof.
  rewrite lend_irqs_spec.
  destruct (forallb (hrm_lend_irq env) l).
  - left. eexists. split; [reflexivity |]. simpl. now repeat split.
  - now right.
Qed.

(** C5: a notification whose cookie is not exactly the one stored in the
    ledger (or that finds no cookie stored) is dropped as
    [NotificationUnmatched]; count, handle, cookie and lent list stay as
    they were.  Hence an event is only ever applied on an exact match. *)
Theorem on_notification_unmatched_dropped (Event : Type)
        (apply_event : Event -> ResourceLedger -> ResourceLedger)
        (c : Z) (ev : Event) (L : ResourceLedger) :
  notification_cookie L <> Some c ->
  on_notification Event apply_event c ev L = (inr NotificationUnmatched, L).
Proof.
  intros H. unfold on_notification.
  destruct (notification_cookie L) as [c0|]; [| reflexivity].
  destruct (Z.eqb_spec c0 c) as [->|]; [now contradiction H | reflexivity].
Qed.

Lemma on_notification_unmatched_dropped_witness :
  on_notification unit (fun _ _ => fresh_ledger) 13 tt
                  (mk_ledger 2 (Some 5) (Some 12) [mk_irq_entry 7 42; mk_irq_entry 9 55])
  = (inr NotificationUnmatched,
     mk_ledger 2 (Some 5) (Some 12) [mk_irq_entry 7 42; mk_irq_entry 9 55]).
Proof.
  apply on_notification_unmatched_dropped. simpl. intros H. discriminate H.
Defined.

(** ** The hooks and the held IRQ count *)

Lemma labels_eqb_length a : forall b,
  labels_eqb a b = true -> length a = length b.
Proof.
  induction a as [|x a IH]; intros [|y b] H; simpl in H; try discriminate.
  - reflexivity.
  - apply andb_true_iff in H as [_ H]. simpl. f_equal. now apply IH.
Qed.

Lemma ledger_inv_fresh : ledger_inv fresh_ledger.
Proof. split; simpl; lia. Qed.

Lemma lend_irqs_inv env l L :
  ledger_inv L -> ledger_inv (snd (lend_irqs env l L)).
Proof.
  intros [H0 H1]. rewrite lend_irqs_spec.
  destruct (forallb (hrm_lend_irq env) l); simpl; [| now split].
  split; simpl; [lia |]. rewrite length_app, Nat2Z.inj_add. lia.
Qed.

Lemma reclaim_irqs_inv d L :
  ledger_inv L -> ledger_inv (snd (reclaim_irqs d L)).
Proof.
  intros [H0 H1]. unfold reclaim_irqs.
  destruct (labels_eqb (lent_irqs L) d) eqn:E; simpl; [| now split].
  apply labels_eqb_length in E.
  split; simpl; lia.
Qed.

Lemma lend_memory_inv env sgl L :
  ledger_inv L -> ledger_inv (snd (lend_memory env sgl L)).
Proof.
  intros H. unfold lend_memory.
  destruct (io_memory_handle L); [exact H |].
  destruct (hrm_lend_memory env sgl); exact H.
Qed.

Lemma reclaim_memory_inv h L :
  ledger_inv L -> ledger_inv (snd (reclaim_memory h L)).
Proof.
  intros H. unfold reclaim_memory.
  destruct (io_memory_handle L) as [h0|]; [| exact H].
  destruct (h0 =? h); exact H.
Qed.

Lemma acquire_inv env r :
  ledger_inv (ledger_of r) -> ledger_inv (ledger_of (snd (acquire env r))).
Proof.
  destruct r as [L d rel | L d sgl]; simpl; intros H; [exact H |].
  pose proof (lend_irqs_inv env d L H) as H1.
  destruct (lend_irqs env d L) as [[|e] L1]; simpl in *; [| exact H1].
  pose proof (lend_memory_inv env sgl L1 H1) as H2.
  destruct (lend_memory env sgl L1) as [[|e] L2]; simpl in *; [exact H2 |].
  now apply reclaim_irqs_inv.
Qed.

Lemma release_inv env r :
  ledger_inv (ledger_of r) -> ledger_inv (ledger_of (snd (release env r))).
Proof.
  unfold release. destruct (vm_check env); [| now simpl].
  destruct r as [L d rel | L d sgl]; simpl; intros H; [exact H |].
  destruct (io_memory_handle L) as [h|] eqn:Eh; [| exact H].
  pose proof (reclaim_memory_inv h L H) as H1.
  destruct (reclaim_memory h L) as [[|e] L1]; simpl in *; [| exact H1].
  pose proof (reclaim_irqs_inv d L1 H1) as H2.
  destruct (reclaim_irqs d L1) as [res L2]. exact H2.
Qed.

Lemma run_hook_inv env h r r' :
  ledger_inv (ledger_of r) -> run_hook env h r = Some r' ->
  ledger_inv (ledger_of r').
Proof.
  intros H E. destruct h; simpl in E; try discriminate;
    injection E as <-; try exact H.
  - now apply acquire_inv.
  - now apply release_inv.
  - unfold prepare_commit. now destruct (owns_hw r).
Qed.

(** ** Acquire followed by release *)

Lemma labels_eqb_app_nil lent d :
  labels_eqb (lent ++ d) d = true -> lent = [].
Proof.
  intros H. apply labels_eqb_length in H. rewrite length_app in H.
  destruct lent; [reflexivity | simpl in H; lia].
Qed.

(** C4: a successful [acquire] directly followed by a successful [release]
    gives back the ledger the role had before the acquire, in both roles,
    from every ledger and whatever the collaborators answer.  In
    particular a ledger that was in the pre-acquire state (no IRQ held, no
    memory handle, no cookie pending) is in that state again. *)
Theorem acquire_release_round_trip (env env' : Collaborators)
        (r r1 r2 : RoleDescriptor) :
  acquire env r = (Ok, r1) ->
  release env' r1 = (Ok, r2) ->
  ledger_of r2 = ledger_of r /\
  (pre_acquire (ledger_of r) -> pre_acquire (ledger_of r2)).
Proof.
  intros Ha Hr.
  assert (ledger_of r2 = ledger_of r) as Heq; [| now rewrite Heq].
  unfold release in Hr. destruct (vm_check env'); [| discriminate].
  destruct r as [L d rel | L d sgl]; simpl in Ha.
  - injection Ha as <-. now injection Hr as <-.
  - rewrite lend_irqs_spec in Ha.
    destruct (forallb (hrm_lend_irq env) d); [| discriminate].
    unfold lend_memory in Ha. simpl in Ha.
    destruct (io_memory_handle L) as [h0|] eqn:Hh; [discriminate |].
    destruct (hrm_lend_memory env sgl) as [h|]; [| discriminate].
    injection Ha as <-. simpl in Hr.
    unfold reclaim_memory in Hr. simpl in Hr. rewrite Z.eqb_refl in Hr.
    unfold reclaim_irqs in Hr. simpl in Hr.
    destruct (labels_eqb (lent_irqs L ++ d) d) eqn:E; [| discriminate].
    injection Hr as <-. simpl.
    apply labels_eqb_app_nil in E.
    destruct L as [n hd ck lent]. simpl in *. subst. f_equal. lia.
Qed.

Lemma acquire_release_round_trip_witness :
  ledger_of (snd (release willing_env trusted_acquired)) = ledger_of trusted_idle /\
  pre_acquire (ledger_of (snd (release willing_env trusted_acquired))).
Proof.
  destruct (acquire_release_round_trip willing_env willing_env
              trusted_idle trusted_acquired
              (snd (release willing_env trusted_acquired))
              eq_refl eq_refl) as [Heq Hpre].
  split; [exact Heq |].
  apply Hpre. unfold pre_acquire. simpl. auto.
Defined.

(** ** The scenario of the design document, run on the model *)

Example scenario_acquire :
  acquire willing_env trusted_idle = (Ok, trusted_acquired) /\
  held_irq_count (ledger_of trusted_acquired) = 2 /\
  io_memory_handle (ledger_of trusted_acquired) = Some 5 /\
  owns_hw trusted_acquired = true.
Proof. now repeat split. Qed.

Example scenario_release :
  release willing_env trusted_acquired = (Ok, trusted_idle) /\
  owns_hw trusted_idle = false.
Proof. now repeat split. Qed.

Example scenario_release_busy :
  release busy_env trusted_acquired = (Err ClientNotReady, trusted_acquired).
Proof. reflexivity. Qed.

Example scenario_partial_lend :
  lend_irqs picky_env two_irqs fresh_ledger = (Err ResourceLendFailure, fresh_ledger).
Proof. reflexivity. Qed.

Example scenario_memory_refused :
  acquire stingy_env trusted_idle = (Err ResourceLendFailure, trusted_idle).
Proof. reflexivity. Qed.


(** * How the facade functions compose *)

Section FacadeComposition.

Variable R : Type.
Implicit Types k : sde_kms R.

Lemma set_vm_res_lock_same v : set_vm_res_lock (vm_res_lock v) v = v.
Proof. now destruct v. Qed.

Lemma set_vm_res_lock_twice m m' v :
  set_vm_res_lock m (set_vm_res_lock m' v) = set_vm_res_lock m v.
Proof. reflexivity. Qed.

Lemma set_vm_same k : set_vm (vm k) k = k.
Proof. now destruct k. Qed.

(** What a returning [sde_vm_lock] has done: nothing without a descriptor;
    with a descriptor, its lock was free and is now held by the caller. *)
Lemma sde_vm_lock_returns (cur : tid) k k' :
  Enabled.sde_vm_lock cur k = Some k' ->
  (vm k = None /\ k' = k) \/
  (exists v, vm k = Some v /\ vm_res_lock v = MutexFree /\
             k' = set_vm (Some (set_vm_res_lock (MutexHeld cur) v)) k).
Proof.
  unfold Enabled.sde_vm_lock. intros H.
  destruct (vm k) as [v|] eqn:Hv.
  - right. exists v. destruct (vm_res_lock v) as [|o] eqn:Hm; simpl in H.
    + injection H as <-. now repeat split.
    + discriminate.
  - left. now injection H as <-.
Qed.

(** What [sde_vm_unlock] does: nothing without a descriptor; with a
    descriptor, its lock is free afterwards. *)
Lemma sde_vm_unlock_returns (cur : tid) k k' :
  Enabled.sde_vm_unlock cur k = Some k' ->
  (vm k = None /\ k' = k) \/
  (exists v, vm k = Some v /\
             k' = set_vm (Some (set_vm_res_lock MutexFree v)) k).
Proof.
  unfold Enabled.sde_vm_unlock. intros H.
  destruct (vm k) as [v|] eqn:Hv.
  - right. exists v. simpl in H. injection H as <-. now split.
  - left. now injection H as <-.
Qed.

(** X1: whenever [sde_vm_lock] returns, [sde_vm_unlock] by the same task
    on the resulting context returns too and gives back the context as it
    was before the lock, descriptor installed or not. *)
Theorem sde_vm_lock_then_unlock (cur : tid) k k' :
  Enabled.sde_vm_lock cur k = Some k' ->
  Enabled.sde_vm_unlock cur k' = Some k.
Proof.
  intros H. destruct (sde_vm_lock_returns cur k k' H)
    as [[Hv ->] | (v & Hv & Hm & ->)].
  - unfold Enabled.sde_vm_unlock. now rewrite Hv.
  - unfold Enabled.sde_vm_unlock. simpl.
    rewrite set_vm_res_lock_twice, <- Hm, set_vm_res_lock_same.
    unfold set_vm. simpl. rewrite <- Hv. f_equal. apply set_vm_same.
Qed.

(** X2: neither [sde_vm_lock] nor [sde_vm_unlock] changes what the two
    queries answer: on the context they return, [sde_vm_is_enabled] and
    [sde_vm_get_ops] give the same results as before the call. *)
Theorem sde_vm_lock_unlock_keep_queries (cur : tid) k k' :
  Enabled.sde_vm_lock cur k = Some k' \/ Enabled.sde_vm_unlock cur k = Some k' ->
  Enabled.sde_vm_is_enabled k' = Enabled.sde_vm_is_enabled k /\
  Enabled.sde_vm_get_ops k' = Enabled.sde_vm_get_ops k.
Proof.
  intros [H | H].
  - destruct (sde_vm_lock_returns cur k k' H)
      as [[Hv ->] | (v & Hv & Hm & ->)]; [now split |].
    unfold Enabled.sde_vm_is_enabled, Enabled.sde_vm_get_ops. simpl.
    now rewrite Hv.
  - destruct (sde_vm_unlock_returns cur k k' H)
      as [[Hv ->] | (v & Hv & ->)]; [now split |].
    unfold Enabled.sde_vm_is_enabled, Enabled.sde_vm_get_ops. simpl.
    now rewrite Hv.
Qed.

(** X3: a context without descriptor gets from the enabled build exactly
    what the stub build gives every context: [sde_vm_is_enabled],
    [sde_vm_get_ops], [sde_vm_lock] and [sde_vm_unlock] agree. *)
Theorem enabled_without_descriptor_is_stub (cur : tid) k :
  vm k = None ->
  Enabled.sde_vm_is_enabled k = Stub.sde_vm_is_enabled k /\
  Enabled.sde_vm_get_ops k = Stub.sde_vm_get_ops k /\
  Enabled.sde_vm_lock cur k = Stub.sde_vm_lock cur k /\
  Enabled.sde_vm_unlock cur k = Stub.sde_vm_unlock cur k.
Proof.
  intros Hv.
  unfold Enabled.sde_vm_is_enabled, Enabled.sde_vm_get_ops,
    Enabled.sde_vm_lock, Enabled.sde_vm_unlock.
  rewrite Hv. now repeat split.
Qed.

(** X4: once [sde_vm_lock] has returned on a context with a descriptor, no
    further [sde_vm_lock] on the resulting context returns, for any task,
    the caller included. *)
Theorem sde_vm_lock_excludes (cur : tid) k k' :
  Enabled.sde_vm_is_enabled k = true ->
  Enabled.sde_vm_lock cur k = Some k' ->
  forall other, Enabled.sde_vm_lock other k' = None.
Proof.
  intros He H. destruct (sde_vm_lock_returns cur k k' H)
    as [[Hv ->] | (v & Hv & Hm & ->)].
  - unfold Enabled.sde_vm_is_enabled in He. rewrite Hv in He. discriminate.
  - intros other. reflexivity.
Qed.

(** X5: once the holder's [sde_vm_unlock] has returned on a context with a
    descriptor, [sde_vm_lock] returns for every task, with that task as the
    holder and [kms_rest] and the other descriptor members as before. *)
Theorem sde_vm_unlock_hands_over (cur next : tid) k k' :
  Enabled.sde_vm_is_enabled k = true ->
  Enabled.sde_vm_unlock cur k = Some k' ->
  exists v,
    vm k = Some v /\
    Enabled.sde_vm_lock next k' =
    Some (mk_sde_kms (Some (set_vm_res_lock (MutexHeld next) v)) (kms_rest k)).
Proof.
  intros He H. destruct (sde_vm_unlock_returns cur k k' H)
    as [[Hv ->] | (v & Hv & ->)].
  - unfold Enabled.sde_vm_is_enabled in He. rewrite Hv in He. discriminate.
  - exists v. split; [exact Hv | reflexivity].
Qed.

End FacadeComposition.

Lemma sde_vm_lock_then_unlock_witness :
  Enabled.sde_vm_unlock 1%nat kms0_locked = Some kms0.
Proof.
  apply (sde_vm_lock_then_unlock unit 1%nat kms0 kms0_locked). reflexivity.
Defined.

Lemma sde_vm_lock_unlock_keep_queries_witness :
  Enabled.sde_vm_is_enabled kms0_locked = Enabled.sde_vm_is_enabled kms0 /\
  Enabled.sde_vm_get_ops kms0_locked = Enabled.sde_vm_get_ops kms0.
Proof.
  apply (sde_vm_lock_unlock_keep_queries unit 1%nat kms0 kms0_locked).
  left. reflexivity.
Defined.

Lemma enabled_without_descriptor_is_stub_witness :
  Enabled.sde_vm_lock 3%nat kms_off = Stub.sde_vm_lock 3%nat kms_off.
Proof.
  apply (enabled_without_descriptor_is_stub unit 3%nat kms_off). reflexivity.
Defined.

Lemma sde_vm_lock_excludes_witness :
  Enabled.sde_vm_lock 2%nat kms0_locked = None /\
  Enabled.sde_vm_lock 1%nat kms0_locked = None.
Proof.
  pose proof (sde_vm_lock_excludes unit 1%nat kms0 kms0_locked eq_refl eq_refl)
    as Hl.
  split; [exact (Hl 2%nat) | exact (Hl 1%nat)].
Defined.

Lemma sde_vm_unlock_hands_over_witness :
  exists v, vm kms0_locked = Some v /\
    Enabled.sde_vm_lock 2%nat kms0 =
    Some (mk_sde_kms (Some (set_vm_res_lock (MutexHeld 2%nat) v)) tt).
Proof.
  exact (sde_vm_unlock_hands_over unit 1%nat 2%nat kms0_locked kms0 eq_refl eq_refl).
Defined.
